(** * data-morph: target shapes and their distance metrics

    A shallow embedding of [src/data_morph/shapes.py].  Numbers are real
    numbers ([R]): Python floats are idealised, so rounding, infinities and
    NaN are outside the model.  Exceptions are explicit: every function that
    can raise returns a [result]. *)

From Stdlib Require Import Reals Lra Lia.
From stdpp Require Import gmap strings list.

Open Scope R_scope.

(** ** Exceptions and the error monad *)

(** The exceptions the module can meet.  A message is carried only where the
    source builds it ([ValueError]); [KeyError] carries the missing key. *)
Inductive exn : Type :=
| TypeError
| AttributeError
| ZeroDivisionError
| KeyError (key : string)
| ValueError (msg : string).

Inductive result (A : Type) : Type :=
| Ok (a : A)
| Raise (e : exn).
Arguments Ok {A} a.
Arguments Raise {A} e.

#[export] Instance result_ret : MRet result := fun _ a => Ok a.
#[export] Instance result_bind : MBind result := fun _ _ f m =>
  match m with
  | Ok a => f a
  | Raise e => Raise e
  end.
#[export] Instance result_fmap : FMap result := fun _ _ f m =>
  match m with
  | Ok a => Ok (f a)
  | Raise e => Raise e
  end.

(** [try: m except KeyError: handler]. *)
Definition except_KeyError {A} (m : result A) (handler : result A) : result A :=
  match m with
  | Raise (KeyError _) => handler
  | _ => m
  end.

(** ** Numbers *)

Definition Rltb (a b : R) : bool := if Rlt_dec a b then true else false.

(** Python's [a / b]. *)
Definition true_div (a b : R) : result R :=
  if Req_dec_T b 0 then Raise ZeroDivisionError else Ok (a / b).

(** Python's [max(a, b)] and [min(iterable)]: [min] of an empty iterable is a
    [ValueError]. *)
Definition py_max (a b : R) : R := Rmax a b.

Definition py_min (l : list R) : result R :=
  match l with
  | [] => Raise (ValueError "min() arg is an empty sequence")
  | h :: t => Ok (fold_left Rmin t h)
  end.

(** ** Array-likes and [scipy.spatial.distance.euclidean] *)

(** What the module hands to scipy: numbers and (nested) tuples or lists. *)
#[warnings="-register-all"]
Inductive array_like : Type :=
| Num (v : R)
| Seq (items : list array_like).

Definition point : Type := R * R.
Definition line : Type := point * point.

(** The tuple [(x, y)] or list [[x, y]]. *)
Definition vec (p : point) : array_like := Seq [Num p.1; Num p.2].

Definition as_number (a : array_like) : option R :=
  match a with
  | Num v => Some v
  | Seq _ => None
  end.

(** scipy's [_validate_vector]: the input must be one-dimensional.  (On a
    ragged nesting numpy raises a [ValueError] of its own, with another
    message.) *)
Definition _validate_vector (a : array_like) : result (list R) :=
  match a with
  | Num _ => Raise (ValueError "Input vector should be 1-D.")
  | Seq items =>
      match mapM as_number items with
      | Some v => Ok v
      | None => Raise (ValueError "Input vector should be 1-D.")
      end
  end.

(** numpy's [u - v] on one-dimensional arrays: equal lengths, or one operand
    of length one is broadcast. *)
Definition subtract (u v : list R) : result (list R) :=
  match u, v with
  | [a], _ => Ok (map (fun b => a - b) v)
  | _, [b] => Ok (map (fun a => a - b) u)
  | _, _ =>
      if decide (length u = length v)
      then Ok (zip_with Rminus u v)
      else Raise (ValueError "operands could not be broadcast together")
  end.

Definition dot (u v : list R) : R :=
  fold_left Rplus (zip_with Rmult u v) 0.

(** [Shape._euclidean_distance]: [distance.euclidean(a, b)], the 2-norm of
    [a - b]. *)
Definition _euclidean_distance (a b : array_like) : result R :=
  u ← _validate_vector a;
  v ← _validate_vector b;
  u_v ← subtract u v;
  Ok (sqrt (dot u_v u_v)).

(** ** The dataset *)

(** A pandas frame with the two columns [x] and [y].  The statistics below
    are pandas' on a column that has at least one row.  On an empty column
    pandas answers NaN, which the model has not: there the functions answer
    0, which is NO model of the code, and every statement that depends on the
    value of a statistic assumes [has_rows]. *)
Record DataFrame : Type := { df_x : list R; df_y : list R }.

(** The frame has one row at least. *)
Definition has_rows (data : DataFrame) : Prop :=
  df_x data <> [] /\ df_y data <> [].

Definition Series_sum (s : list R) : R := fold_left Rplus s 0.

Definition Series_mean (s : list R) : R := Series_sum s / INR (length s).

Definition Series_min (s : list R) : R :=
  match s with
  | [] => 0
  | h :: t => fold_left Rmin t h
  end.

Definition Series_max (s : list R) : R :=
  match s with
  | [] => 0
  | h :: t => fold_left Rmax t h
  end.

Fixpoint insert_sorted (v : R) (s : list R) : list R :=
  match s with
  | [] => [v]
  | h :: t => if Rle_dec v h then v :: s else h :: insert_sorted v t
  end.

Definition sort_values (s : list R) : list R := foldr insert_sorted [] s.

(** [Series.quantile(q)] with the default linear interpolation between the
    two order statistics around position [(n - 1) * q]. *)
Definition quantile1 (s : list R) (q : R) : R :=
  let sorted := sort_values s in
  let pos := (INR (length s) - 1) * q in
  let lo := Z.to_nat (Int_part pos) in
  let hi := Nat.min (S lo) (Nat.pred (length s)) in
  let a := nth lo sorted 0 in
  let b := nth hi sorted 0 in
  a + (b - a) * frac_part pos.

Definition Series_quantile (s : list R) (qs : list R) : list R :=
  map (quantile1 s) qs.

(** [data.min()] and [data.max()], unpacked as [xmin, ymin = ...]. *)
Definition DataFrame_min (data : DataFrame) : R * R :=
  (Series_min (df_x data), Series_min (df_y data)).

Definition DataFrame_max (data : DataFrame) : R * R :=
  (Series_max (df_x data), Series_max (df_y data)).

(** A positional argument of a constructor call. *)
Inductive pyobj : Type :=
| PData (data : DataFrame)
| PFloat (v : R).

(** ** The shapes *)

(** [Shape.__repr__] of a class that does not override it: the lower-cased
  class name.  [Shape.__init__] and [Shape.distance] raise
  [NotImplementedError] and are overridden by every class below. *)

Module Circle.
(** A hollow circle. *)
Record t : Type := { cx : R; cy : R; r : R }.

Definition __init__ (data : DataFrame) : t :=
  {| cx := Series_mean (df_x data);
     cy := Series_mean (df_y data);
     r := 30 |}.

(** The call [Circle(args)]: [__init__] takes [data] only, and reads
    [data.x] and [data.y]. *)
Definition new (args : list pyobj) : result t :=
  match args with
  | [PData data] => Ok (__init__ data)
  | [PFloat _] => Raise AttributeError
  | _ => Raise TypeError
  end.

Definition distance (self : t) (x y : R) : result R :=
  d ← _euclidean_distance (vec (cx self, cy self)) (vec (x, y));
  Ok (Rabs (d - r self)).

Definition __repr__ (self : t) : string := "circle".
End Circle.

Module Bullseye.
(** Two concentric circles. *)
Record t : Type := { circles : list Circle.t }.

Definition __init__ (data : DataFrame) : result t :=
  cs ← mapM (fun r => Circle.new [PFloat (Series_mean (df_x data));
                                  PFloat (Series_mean (df_y data));
                                  PFloat r])
            [18; 37];
  Ok {| circles := cs |}.

Definition new (args : list pyobj) : result t :=
  match args with
  | [PData data] => __init__ data
  | [PFloat _] => Raise AttributeError
  | _ => Raise TypeError
  end.

Definition distance (self : t) (x y : R) : result R :=
  ds ← mapM (fun circle => Circle.distance circle x y) (circles self);
  py_min ds.

Definition __repr__ (self : t) : string := "bullseye".
End Bullseye.

(** [itertools.product] of the pools: the tuples that take one element of each
    pool, the rightmost pool advancing fastest. *)
Fixpoint product {A : Type} (pools : list (list A)) : list (list A) :=
  match pools with
  | [] => [[]]
  | pool :: rest => a ← pool; tl ← product rest; [a :: tl]
  end.

Module Dots.
(** A grid of dots. *)
Record t : Type := { dots : list (list array_like) }.

(** [product] receives ONE argument, the generator over the two columns;
    each column gives the list of its three quantiles. *)
Definition __init__ (data : DataFrame) : t :=
  {| dots :=
       product
         [ map (fun column =>
                  Seq (map Num (Series_quantile (column data) [0.05; 0.5; 0.95])))
               [df_x; df_y] ] |}.

(** A float has no [data[coord]]: the single-argument call raises
    [TypeError] as well. *)
Definition new (args : list pyobj) : result t :=
  match args with
  | [PData data] => Ok (__init__ data)
  | _ => Raise TypeError
  end.

Definition distance (self : t) (x y : R) : result R :=
  ds ← mapM (fun dot => _euclidean_distance (Seq dot) (vec (x, y))) (dots self);
  py_min ds.

Definition __repr__ (self : t) : string := "dots".
End Dots.

Module Lines.
(** A shape made of several line segments. *)
Record t : Type := { lines : list line }.

Definition __init__ (lines : list line) : t := {| lines := lines |}.

(** The distance between a point and a line segment. *)
Definition distance_point_to_line (point : point) (line : line) : result R :=
  let '(start, end_) := line in
  line_mag ← _euclidean_distance (vec start) (vec end_);
  if Rltb line_mag 0.00000001 then
    (* Arbitrarily large value *)
    Ok 9999
  else
    let '(px, py) := point in
    let '(x1, y1) := start in
    let '(x2, y2) := end_ in
    let u1 := ((px - x1) * (x2 - x1)) + ((py - y1) * (y2 - y1)) in
    u ← true_div u1 (line_mag * line_mag);
    if Rltb u 0.00001 || Rltb 1 u then
      d_start ← _euclidean_distance (vec point) (vec start);
      d_end ← _euclidean_distance (vec point) (vec end_);
      Ok (py_max d_start d_end)
    else
      (* Intersecting point is on the line, use the formula *)
      let ix := x1 + u * (x2 - x1) in
      let iy := y1 + u * (y2 - y1) in
      _euclidean_distance (vec point) (vec (ix, iy)).

Definition distance (self : t) (x y : R) : result R :=
  ds ← mapM (fun line => distance_point_to_line (x, y) line) (lines self);
  py_min ds.
End Lines.

Module XLines.
(** The X shape: the two diagonals of the bounding box of the data. *)
Definition __init__ (data : DataFrame) : Lines.t :=
  let '(xmin, ymin) := DataFrame_min data in
  let '(xmax, ymax) := DataFrame_max data in
  Lines.__init__ [ ((xmin, ymin), (xmax, ymax)); ((xmin, ymax), (xmax, ymin)) ].

Definition new (args : list pyobj) : result Lines.t :=
  match args with
  | [PData data] => Ok (__init__ data)
  | [PFloat _] => Raise AttributeError
  | _ => Raise TypeError
  end.

Definition __repr__ (self : Lines.t) : string := "x".
End XLines.

Module HorizontalLines.
(** Five horizontal lines; the bounds of the data are read and not used. *)
Definition __init__ (data : DataFrame) : Lines.t :=
  let '(xmin, ymin) := DataFrame_min data in
  let '(xmax, ymax) := DataFrame_max data in
  Lines.__init__ (map (fun y => ((0, y), (100, y))) [10; 30; 50; 70; 90]).

Definition new (args : list pyobj) : result Lines.t :=
  match args with
  | [PData data] => Ok (__init__ data)
  | [PFloat _] => Raise AttributeError
  | _ => Raise TypeError
  end.

Definition __repr__ (self : Lines.t) : string := "h_lines".
End HorizontalLines.

Module VerticalLines.
(** Five vertical lines; the bounds of the data are read and not used. *)
Definition __init__ (data : DataFrame) : Lines.t :=
  let '(xmin, ymin) := DataFrame_min data in
  let '(xmax, ymax) := DataFrame_max data in
  Lines.__init__ (map (fun x => ((x, 0), (x, 100))) [10; 30; 50; 70; 90]).

Definition new (args : list pyobj) : result Lines.t :=
  match args with
  | [PData data] => Ok (__init__ data)
  | [PFloat _] => Raise AttributeError
  | _ => Raise TypeError
  end.

Definition __repr__ (self : Lines.t) : string := "v_lines".
End VerticalLines.

(** An instance of one of the concrete classes. *)
Inductive Shape : Type :=
| ACircle (self : Circle.t)
| ABullseye (self : Bullseye.t)
| ADots (self : Dots.t)
| AXLines (self : Lines.t)
| AHorizontalLines (self : Lines.t)
| AVerticalLines (self : Lines.t).

(** [shape.distance(x, y)], dispatched on the class. *)
Definition distance (shape : Shape) (x y : R) : result R :=
  match shape with
  | ACircle self => Circle.distance self x y
  | ABullseye self => Bullseye.distance self x y
  | ADots self => Dots.distance self x y
  | AXLines self | AHorizontalLines self | AVerticalLines self =>
      Lines.distance self x y
  end.

Definition __repr__ (shape : Shape) : string :=
  match shape with
  | ACircle self => Circle.__repr__ self
  | ABullseye self => Bullseye.__repr__ self
  | ADots self => Dots.__repr__ self
  | AXLines self => XLines.__repr__ self
  | AHorizontalLines self => HorizontalLines.__repr__ self
  | AVerticalLines self => VerticalLines.__repr__ self
  end.

(** ** The factory *)

Module ShapeFactory.
Record t : Type := { data : DataFrame }.

(** A class as a callable on its positional arguments. *)
Abbreviation class := (list pyobj -> result Shape).

Definition AVAILABLE_SHAPES : gmap string class :=
  {[ "circle" := (fun args => ACircle <$> Circle.new args) : class;
     "bullseye" := (fun args => ABullseye <$> Bullseye.new args) : class;
     "dots" := (fun args => ADots <$> Dots.new args) : class;
     "x" := (fun args => AXLines <$> XLines.new args) : class;
     "h_lines" := (fun args => AHorizontalLines <$> HorizontalLines.new args) : class;
     "v_lines" := (fun args => AVerticalLines <$> VerticalLines.new args) : class ]}.

Definition __init__ (data : DataFrame) : t := {| data := data |}.

Definition generate_shape (self : t) (shape : string) : result Shape :=
  except_KeyError
    (match AVAILABLE_SHAPES !! shape with
     | Some cls => cls [PData (data self)]
     | None => Raise (KeyError shape)
     end)
    (Raise (ValueError ("No such shape as " +:+ shape +:+ "."))).
End ShapeFactory.

(** ** Geometry used in the statements *)

(** The Euclidean distance of two points, written out. *)
Definition dist (a b : point) : R :=
  sqrt ((a.1 - b.1) * (a.1 - b.1) + (a.2 - b.2) * (a.2 - b.2)).

(** The projection parameter of a point on the line through a segment, as
    [distance_point_to_line] computes it. *)
Definition projection (p : point) (l : line) : R :=
  ((p.1 - l.1.1) * (l.2.1 - l.1.1) + (p.2 - l.1.2) * (l.2.2 - l.1.2))
  / (dist l.1 l.2 * dist l.1 l.2).

(** The point of the segment at parameter [t]. *)
Definition along (l : line) (t : R) : point :=
  (l.1.1 + t * (l.2.1 - l.1.1), l.1.2 + t * (l.2.2 - l.1.2)).

(** [p] lies on the segment, at a parameter between [lo] and 1. *)
Definition on_segment_from (lo : R) (p : point) (l : line) : Prop :=
  exists t, lo <= t <= 1 /\ p = along l t.

Definition on_segment : point -> line -> Prop := on_segment_from 0.

(** A segment shorter than the epsilon of [distance_point_to_line]. *)
Definition degenerate (l : line) : Prop := dist l.1 l.2 < 0.00000001.

(** [p] is at distance [r] of the centre of the circle. *)
Definition on_circle (c : Circle.t) (p : point) : Prop :=
  dist (Circle.cx c, Circle.cy c) p = Circle.r c.

(** The outline of a shape: its circles, its dots, its segments. *)
Definition on_outline (shape : Shape) (p : point) : Prop :=
  match shape with
  | ACircle self => on_circle self p
  | ABullseye self => exists c, c ∈ Bullseye.circles self /\ on_circle c p
  | ADots self => exists dot, dot ∈ Dots.dots self /\ Seq dot = vec p
  | AXLines self | AHorizontalLines self | AVerticalLines self =>
      exists l, l ∈ Lines.lines self /\ on_segment p l
  end.

(** [p] lies on the segment [l], which is not degenerate, and the projection
    parameter that [distance_point_to_line] computes for [p] is strictly
    inside the bounds 0.00001 and 1 of the projection branch. *)
Definition inside_segment (p : point) (l : line) : Prop :=
  ~ degenerate l /\ 0.00001 < projection p l < 1 /\ on_segment p l.

(** The part of the outline of a circle or line figure that the claims below
    reach: the circle, and the inside of the segments. *)
Definition on_inner_outline (shape : Shape) (p : point) : Prop :=
  match shape with
  | ACircle self => on_circle self p
  | AXLines self | AHorizontalLines self | AVerticalLines self =>
      exists l, l ∈ Lines.lines self /\ inside_segment p l
  | ABullseye _ | ADots _ => False
  end.

(** The first of the horizontal lines, [[0, 10], [100, 10]]. *)
Definition h_line_10 : line := ((0, 10), (100, 10)).

(** The keys of [AVAILABLE_SHAPES]. *)
Definition registered_names : list string :=
  ["circle"; "bullseye"; "dots"; "x"; "h_lines"; "v_lines"]%string.

(** The shapes whose class builds and answers distances: the circle and the
    three line figures. *)
Definition metric_names : list string := ["circle"; "x"; "h_lines"; "v_lines"]%string.

(** The mirror image in the diagonal: [x] and [y] exchanged. *)
Definition transpose (p : point) : point := (p.2, p.1).

Definition transpose_line (l : line) : line := (transpose l.1, transpose l.2).

(** The dots of a well-formed instance of Dots: one coordinate pair each. *)
Definition dots_of_points (ps : list point) : list (list array_like) :=
  map (fun q => [Num q.1; Num q.2]) ps.

(** ** Basic facts *)

Lemma Rltb_true a b : Rltb a b = true <-> a < b.
Proof. unfold Rltb. destruct (Rlt_dec a b); split; auto; discriminate. Qed.

Lemma Rltb_false a b : Rltb a b = false <-> b <= a.
Proof.
  unfold Rltb. destruct (Rlt_dec a b); split; auto; try discriminate; lra.
Qed.

Lemma bind_Ok {A B} (a : A) (f : A -> result B) : Ok a ≫= f = f a.
Proof. reflexivity. Qed.

Lemma sum_sqr_nonneg (u v : R) : 0 <= u * u + v * v.
Proof.
  pose proof (Rle_0_sqr u). pose proof (Rle_0_sqr v). unfold Rsqr in *. lra.
Qed.

Lemma euclidean_vec (a b : point) :
  _euclidean_distance (vec a) (vec b) = Ok (dist a b).
Proof.
  destruct a as [a1 a2], b as [b1 b2]. unfold _euclidean_distance, dist. cbn.
  case_decide; [|done]. cbn. f_equal. f_equal. unfold dot. cbn. ring.
Qed.

Lemma dist_nonneg a b : 0 <= dist a b.
Proof. apply sqrt_pos. Qed.

Lemma dist_zero a b : dist a b = 0 <-> a = b.
Proof.
  destruct a as [a1 a2], b as [b1 b2]. unfold dist. cbn. split.
  - intros H.
    assert (Hs : (a1 - b1) * (a1 - b1) + (a2 - b2) * (a2 - b2) = 0)
      by (apply sqrt_eq_0; [apply sum_sqr_nonneg | exact H]).
    destruct (Rplus_sqr_eq_0 _ _ Hs). f_equal; lra.
  - intros [= -> ->]. rewrite <- sqrt_0. f_equal. ring.
Qed.

Lemma dist_sqr a b :
  dist a b * dist a b = (a.1 - b.1) * (a.1 - b.1) + (a.2 - b.2) * (a.2 - b.2).
Proof. unfold dist. apply sqrt_sqrt, sum_sqr_nonneg. Qed.

Lemma true_div_ok a b : b <> 0 -> true_div a b = Ok (a / b).
Proof. intros H. unfold true_div. destruct (Req_dec_T b 0); [contradiction|done]. Qed.

(** ** The three branches of [distance_point_to_line] *)

Lemma nondegenerate_sqr_neq_0 (l : line) :
  ~ degenerate l -> dist l.1 l.2 * dist l.1 l.2 <> 0.
Proof.
  unfold degenerate. intros H.
  assert (0.00000001 <= dist l.1 l.2) by lra. nra.
Qed.

Lemma segment_degenerate (p : point) (l : line) :
  degenerate l -> Lines.distance_point_to_line p l = Ok 9999.
Proof.
  destruct l as [start end_]. unfold degenerate, Lines.distance_point_to_line.
  cbn [fst snd]. intros H. rewrite (euclidean_vec start end_), bind_Ok.
  apply Rltb_true in H. by rewrite H.
Qed.

Lemma segment_unfold (p : point) (l : line) :
  ~ degenerate l ->
  Lines.distance_point_to_line p l =
    if Rltb (projection p l) 0.00001 || Rltb 1 (projection p l)
    then Ok (Rmax (dist p l.1) (dist p l.2))
    else Ok (dist p (along l (projection p l))).
Proof.
  intros Hnd. pose proof (nondegenerate_sqr_neq_0 l Hnd) as Hsq.
  destruct p as [px py], l as [[x1 y1] [x2 y2]].
  unfold degenerate in Hnd. cbn [fst snd] in *.
  unfold Lines.distance_point_to_line.
  rewrite (euclidean_vec (x1, y1) (x2, y2)), bind_Ok.
  assert (Rltb (dist (x1, y1) (x2, y2)) 0.00000001 = false) as ->
    by (apply Rltb_false; lra).
  rewrite true_div_ok, bind_Ok by exact Hsq.
  unfold projection, along. cbn [fst snd].
  destruct (Rltb _ 0.00001 || Rltb 1 _).
  - by rewrite !euclidean_vec, !bind_Ok.
  - by rewrite euclidean_vec.
Qed.

Lemma segment_endpoint (p : point) (l : line) :
  ~ degenerate l ->
  projection p l < 0.00001 \/ 1 < projection p l ->
  Lines.distance_point_to_line p l = Ok (Rmax (dist p l.1) (dist p l.2)).
Proof.
  intros Hnd Hu. rewrite segment_unfold by exact Hnd.
  destruct Hu as [Hu | Hu]; apply Rltb_true in Hu; rewrite Hu.
  - done.
  - by rewrite orb_true_r.
Qed.

Lemma segment_projected (p : point) (l : line) :
  ~ degenerate l ->
  0.00001 <= projection p l <= 1 ->
  Lines.distance_point_to_line p l = Ok (dist p (along l (projection p l))).
Proof.
  intros Hnd [Hlo Hhi]. rewrite segment_unfold by exact Hnd.
  apply Rltb_false in Hlo, Hhi. by rewrite Hlo, Hhi.
Qed.

Lemma projection_along (l : line) (t : R) :
  ~ degenerate l -> projection (along l t) l = t.
Proof.
  intros Hnd. pose proof (nondegenerate_sqr_neq_0 l Hnd) as Hsq.
  unfold projection. rewrite dist_sqr in *.
  destruct l as [[x1 y1] [x2 y2]]. cbn [fst snd along] in *.
  field. intros Hz. apply Hsq. rewrite <- Hz. ring.
Qed.

Lemma segment_nonneg (p : point) (l : line) :
  exists d, Lines.distance_point_to_line p l = Ok d /\ 0 <= d.
Proof.
  destruct (Rlt_dec (dist l.1 l.2) 0.00000001) as [Hd | Hnd].
  - exists 9999. split; [by apply segment_degenerate | lra].
  - rewrite segment_unfold by exact Hnd.
    destruct (Rltb _ 0.00001 || Rltb 1 _); eexists; split; try reflexivity.
    + pose proof (dist_nonneg p l.1). pose proof (Rmax_l (dist p l.1) (dist p l.2)).
      lra.
    + apply dist_nonneg.
Qed.

Lemma segment_zero_on (p : point) (l : line) :
  Lines.distance_point_to_line p l = Ok 0 ->
  ~ degenerate l /\ on_segment_from 0.00001 p l.
Proof.
  destruct (Rlt_dec (dist l.1 l.2) 0.00000001) as [Hd | Hnd].
  - rewrite segment_degenerate by exact Hd. intros [= H]. lra.
  - rewrite segment_unfold by exact Hnd.
    destruct (Rltb _ 0.00001) eqn:Hlo; [|destruct (Rltb 1 _) eqn:Hhi];
      cbn [orb]; intros [= H].
    1,2: exfalso; apply Hnd;
      pose proof (dist_nonneg p l.1); pose proof (dist_nonneg p l.2);
      pose proof (Rmax_l (dist p l.1) (dist p l.2));
      pose proof (Rmax_r (dist p l.1) (dist p l.2));
      assert (Hs : dist p l.1 = 0) by lra; assert (He : dist p l.2 = 0) by lra;
      apply dist_zero in Hs, He; rewrite <- Hs, <- He;
      replace (dist p p) with 0 by (symmetry; by apply dist_zero); lra.
    split; [exact Hnd|]. apply Rltb_false in Hlo, Hhi.
    exists (projection p l). split; [lra|]. by apply dist_zero.
Qed.

Lemma segment_on_zero (p : point) (l : line) :
  ~ degenerate l -> on_segment_from 0.00001 p l ->
  Lines.distance_point_to_line p l = Ok 0.
Proof.
  intros Hnd (t & Ht & ->).
  rewrite segment_projected; rewrite ?projection_along by exact Hnd; try done.
  f_equal. by apply dist_zero.
Qed.

(** ** [min] over the results of a generator *)

Lemma mapM_Ok_Forall2 {A B} (f : A -> result B) (P : A -> B -> Prop) (l : list A) :
  (forall a, a ∈ l -> exists b, f a = Ok b /\ P a b) ->
  exists bs, mapM f l = Ok bs /\ Forall2 P l bs.
Proof.
  induction l as [|a l IH]; intros Hf.
  - exists []. split; [reflexivity | constructor].
  - destruct (Hf a) as (b & Hb & HP); [left|].
    destruct IH as (bs & Hbs & HF); [intros; apply Hf; by right|].
    exists (b :: bs). split; [|by constructor].
    cbn. rewrite Hb, bind_Ok. cbn in Hbs. by rewrite Hbs.
Qed.

Lemma fold_Rmin_spec (t : list R) (h : R) :
  fold_left Rmin t h ∈ h :: t /\ Forall (fun d => fold_left Rmin t h <= d) (h :: t).
Proof.
  revert h. induction t as [|a t IH]; intros h; cbn.
  - split; [left | apply Forall_cons; split; [lra | constructor]].
  - destruct (IH (Rmin h a)) as [Hin Hall]. inversion_clear Hall as [|? ? Hm Ht].
    split.
    + apply elem_of_cons in Hin as [-> | Hin]; [|by do 2 right].
      unfold Rmin. destruct (Rle_dec h a); [left | right; left].
    + pose proof (Rmin_l h a). pose proof (Rmin_r h a).
      apply Forall_cons; split; [lra|]. apply Forall_cons; split; [lra | exact Ht].
Qed.

Lemma py_min_spec (ds : list R) :
  ds <> [] ->
  exists m, py_min ds = Ok m /\ m ∈ ds /\ Forall (fun d => m <= d) ds.
Proof.
  destruct ds as [|h t]; [done|]. intros _. eexists. split; [reflexivity|].
  apply fold_Rmin_spec.
Qed.

Lemma Forall2_elem_of_r {A B} (P : A -> B -> Prop) (l : list A) (bs : list B) (b : B) :
  Forall2 P l bs -> b ∈ bs -> exists a, a ∈ l /\ P a b.
Proof.
  induction 1 as [|a b' l bs HP _ IH]; intros Hin.
  - by apply elem_of_nil in Hin.
  - apply elem_of_cons in Hin as [-> | Hin].
    + exists a. split; [left | done].
    + destruct (IH Hin) as (a' & Ha' & HP'). exists a'. split; [by right | done].
Qed.

Lemma Forall2_elem_of_l {A B} (P : A -> B -> Prop) (l : list A) (bs : list B) (a : A) :
  Forall2 P l bs -> a ∈ l -> exists b, b ∈ bs /\ P a b.
Proof.
  induction 1 as [|a' b l bs HP _ IH]; intros Hin.
  - by apply elem_of_nil in Hin.
  - apply elem_of_cons in Hin as [-> | Hin].
    + exists b. split; [left | done].
    + destruct (IH Hin) as (b' & Hb' & HP'). exists b'. split; [by right | done].
Qed.

(** ** Circles and line figures *)

Lemma Circle_distance_eq (c : Circle.t) (x y : R) :
  Circle.distance c x y =
    Ok (Rabs (dist (Circle.cx c, Circle.cy c) (x, y) - Circle.r c)).
Proof. unfold Circle.distance. by rewrite euclidean_vec. Qed.

Lemma Rabs_zero (v : R) : Rabs v = 0 <-> v = 0.
Proof. unfold Rabs. destruct (Rcase_abs v); lra. Qed.

Lemma Lines_distance_spec (self : Lines.t) (x y : R) :
  Lines.lines self <> [] ->
  exists d, Lines.distance self x y = Ok d /\ 0 <= d /\
    (d = 0 -> exists l, l ∈ Lines.lines self /\ ~ degenerate l /\
                        on_segment_from 0.00001 (x, y) l) /\
    (forall l, l ∈ Lines.lines self -> ~ degenerate l ->
               on_segment_from 0.00001 (x, y) l -> d = 0).
Proof.
  intros Hne. unfold Lines.distance.
  destruct (mapM_Ok_Forall2 (fun l => Lines.distance_point_to_line (x, y) l)
              (fun l d => Lines.distance_point_to_line (x, y) l = Ok d /\ 0 <= d)
              (Lines.lines self)) as (ds & Hds & HF).
  { intros l _. destruct (segment_nonneg (x, y) l) as (d & Hd & Hpos). eauto. }
  rewrite Hds, bind_Ok.
  destruct (py_min_spec ds) as (m & Hm & Hin & Hle).
  { intros ->. inversion HF. congruence. }
  exists m. split; [exact Hm|].
  destruct (Forall2_elem_of_r _ _ _ _ HF Hin) as (l & Hl & Hlm & Hpos).
  split; [exact Hpos|]. split.
  - intros ->. exists l. split; [exact Hl|]. by apply segment_zero_on.
  - intros l' Hl' Hnd Hon.
    destruct (Forall2_elem_of_l _ _ _ _ HF Hl') as (d' & Hd' & Heq & _).
    rewrite segment_on_zero in Heq by done. injection Heq as <-.
    rewrite Forall_forall in Hle. specialize (Hle _ Hd'). lra.
Qed.

Lemma on_segment_weaken (lo : R) (p : point) (l : line) :
  0 <= lo -> on_segment_from lo p l -> on_segment p l.
Proof. intros Hlo (t & Ht & ->). exists t. split; [lra | done]. Qed.

(** ** Axis-parallel segments, for the concrete evaluations *)

Lemma dist_horizontal (a b y : R) : dist (a, y) (b, y) = Rabs (a - b).
Proof.
  unfold dist. cbn [fst snd]. rewrite <- sqrt_Rsqr_abs. f_equal.
  unfold Rsqr. ring.
Qed.

Lemma dist_vertical (x a b : R) : dist (x, a) (x, b) = Rabs (a - b).
Proof.
  unfold dist. cbn [fst snd]. rewrite <- sqrt_Rsqr_abs. f_equal.
  unfold Rsqr. ring.
Qed.

Lemma projection_horizontal (px py a b y : R) :
  a <> b -> projection (px, py) ((a, y), (b, y)) = (px - a) / (b - a).
Proof.
  intros Hab. unfold projection. rewrite dist_sqr. cbn [fst snd].
  field. split; [lra|].
  replace ((a - b) * (a - b) + (y - y) * (y - y)) with ((a - b) * (a - b)) by ring.
  apply Rmult_integral_contrapositive; split; lra.
Qed.

Lemma h_line_10_not_degenerate : ~ degenerate h_line_10.
Proof.
  unfold degenerate, h_line_10. cbn [fst snd]. rewrite dist_horizontal.
  rewrite Rabs_left1 by lra. lra.
Qed.

Lemma h_line_10_projection (px py : R) :
  projection (px, py) h_line_10 = px / 100.
Proof.
  unfold h_line_10. rewrite projection_horizontal by lra. field.
Qed.

(** ** The claims *)

(** C1. When the segment is not degenerate and the projection parameter [u]
    of the point is below 0.00001 or above 1, [distance_point_to_line]
    returns the larger of the distances of the point to the two end points;
    when these differ, it is not the smaller one. *)
Theorem endpoint_branch_takes_larger (p : point) (l : line) :
  ~ degenerate l ->
  projection p l < 0.00001 \/ 1 < projection p l ->
  Lines.distance_point_to_line p l = Ok (Rmax (dist p l.1) (dist p l.2)) /\
  (dist p l.1 <> dist p l.2 ->
   Lines.distance_point_to_line p l <> Ok (Rmin (dist p l.1) (dist p l.2))).
Proof.
  intros Hnd Hu. rewrite segment_endpoint by done. split; [done|].
  intros Hne [= H]. apply Hne. revert H. unfold Rmax, Rmin.
  destruct (Rle_dec (dist p l.1) (dist p l.2)); lra.
Qed.

Lemma endpoint_branch_takes_larger_witness :
  Lines.distance_point_to_line (-10, 10) h_line_10
    = Ok (Rmax (dist (-10, 10) (0, 10)) (dist (-10, 10) (100, 10))) /\
  (dist (-10, 10) (0, 10) <> dist (-10, 10) (100, 10) ->
   Lines.distance_point_to_line (-10, 10) h_line_10
     <> Ok (Rmin (dist (-10, 10) (0, 10)) (dist (-10, 10) (100, 10)))).
Proof.
  apply (endpoint_branch_takes_larger (-10, 10) h_line_10).
  - exact h_line_10_not_degenerate.
  - left. rewrite h_line_10_projection. lra.
Defined.

(** C2. On the segment [[(0,10),(100,10)]] the point (50,10) is at distance 0
    and the point (50,20) at distance 10; the point (-10,10), which projects
    before the start of the segment, is at distance 110, the distance to the
    far end point, and not at distance 10. *)
Theorem horizontal_segment_distances :
  Lines.distance_point_to_line (50, 10) h_line_10 = Ok 0 /\
  Lines.distance_point_to_line (50, 20) h_line_10 = Ok 10 /\
  Lines.distance_point_to_line (-10, 10) h_line_10 = Ok 110 /\
  Lines.distance_point_to_line (-10, 10) h_line_10 <> Ok 10.
Proof.
  assert (H3 : Lines.distance_point_to_line (-10, 10) h_line_10 = Ok 110).
  { rewrite segment_endpoint;
      [| exact h_line_10_not_degenerate
       | left; rewrite h_line_10_projection; lra].
    unfold h_line_10. cbn [fst snd]. rewrite !dist_horizontal.
    rewrite !Rabs_left1 by lra. f_equal. rewrite Rmax_right; lra. }
  repeat split.
  - apply segment_on_zero; [exact h_line_10_not_degenerate|].
    exists (1 / 2). split; [lra|]. unfold along, h_line_10. cbn [fst snd].
    f_equal; lra.
  - rewrite segment_projected;
      [| exact h_line_10_not_degenerate | rewrite h_line_10_projection; lra].
    rewrite h_line_10_projection. unfold along, h_line_10. cbn [fst snd].
    replace (0 + 50 / 100 * (100 - 0)) with 50 by lra.
    replace (10 + 50 / 100 * (10 - 10)) with 10 by lra.
    rewrite dist_vertical. rewrite Rabs_right by lra. f_equal. lra.
  - exact H3.
  - rewrite H3. intros [= H]. lra.
Qed.

(** C5. On a degenerate segment, one shorter than 0.00000001, such as
    [[(5,5),(5,5)]], [distance_point_to_line] returns the sentinel 9999 for
    every point: it raises nothing, in particular no division by zero. *)
Theorem degenerate_segment_sentinel (p : point) (l : line) :
  degenerate l ->
  Lines.distance_point_to_line p l = Ok 9999 /\
  forall e, Lines.distance_point_to_line p l <> Raise e.
Proof.
  intros Hd. rewrite segment_degenerate by exact Hd. split; [done|]. discriminate.
Qed.

Lemma degenerate_segment_sentinel_witness :
  Lines.distance_point_to_line (1, 2) ((5, 5), (5, 5)) = Ok 9999 /\
  forall e, Lines.distance_point_to_line (1, 2) ((5, 5), (5, 5)) <> Raise e.
Proof.
  apply (degenerate_segment_sentinel (1, 2) ((5, 5), (5, 5))).
  unfold degenerate. cbn [fst snd]. rewrite dist_horizontal.
  rewrite Rabs_right by lra. lra.
Defined.

Lemma registry_lookup (name : string) :
  is_Some (ShapeFactory.AVAILABLE_SHAPES !! name) <-> name ∈ registered_names.
Proof.
  rewrite <- elem_of_dom. unfold ShapeFactory.AVAILABLE_SHAPES, registered_names.
  rewrite !dom_insert_L, dom_singleton_L.
  rewrite !elem_of_union, !elem_of_singleton, !elem_of_cons, elem_of_nil. tauto.
Qed.

Lemma generate_shape_unknown (self : ShapeFactory.t) (name : string) :
  ShapeFactory.AVAILABLE_SHAPES !! name = None ->
  ShapeFactory.generate_shape self name
    = Raise (ValueError ("No such shape as " +:+ name +:+ ".")).
Proof. intros H. unfold ShapeFactory.generate_shape. by rewrite H. Qed.

(** C3. Building a Bullseye fails for every dataset: its constructor calls
    [Circle] with three positional arguments, which [Circle.__init__] does
    not take, so no Bullseye of radii 18 and 37 is ever built, neither
    directly nor through the factory. *)
Theorem bullseye_constructor_raises (data : DataFrame) :
  Bullseye.__init__ data = Raise TypeError /\
  ShapeFactory.generate_shape (ShapeFactory.__init__ data) "bullseye"
    = Raise TypeError.
Proof. split; reflexivity. Qed.

(** C4. A Dots shape holds two entries, one per column and each a 1-tuple of
    the list of the three quantiles of the column, not nine dots; its
    distance raises a [ValueError] at every point. *)
Theorem dots_holds_two_malformed_entries (data : DataFrame) :
  Dots.dots (Dots.__init__ data)
    = [ [Seq (map Num (Series_quantile (df_x data) [0.05; 0.5; 0.95]))];
        [Seq (map Num (Series_quantile (df_y data) [0.05; 0.5; 0.95]))] ] /\
  length (Dots.dots (Dots.__init__ data)) = 2%nat /\
  forall x y, Dots.distance (Dots.__init__ data) x y
                = Raise (ValueError "Input vector should be 1-D.").
Proof. repeat split. Qed.

(** C6. Asked for a name that is not in the registry, [generate_shape]
    raises the [ValueError] of message "No such shape as {name}."; it returns
    no shape. *)
Theorem unknown_shape_raises (self : ShapeFactory.t) (name : string) :
  ShapeFactory.AVAILABLE_SHAPES !! name = None ->
  ShapeFactory.generate_shape self name
    = Raise (ValueError ("No such shape as " +:+ name +:+ ".")) /\
  forall shape, ShapeFactory.generate_shape self name <> Ok shape.
Proof.
  intros H. rewrite generate_shape_unknown by exact H. split; [done | discriminate].
Qed.

Lemma unknown_shape_raises_witness :
  let self := ShapeFactory.__init__ {| df_x := [1; 2]; df_y := [3; 4] |} in
  ShapeFactory.generate_shape self "not-a-shape"
    = Raise (ValueError "No such shape as not-a-shape.") /\
  forall shape, ShapeFactory.generate_shape self "not-a-shape" <> Ok shape.
Proof.
  intros self. apply (unknown_shape_raises self "not-a-shape"). reflexivity.
Defined.

(** C8, as the specification states it, fails: "dots" is a name of the
    registry and is none of circle, bullseye, dot-grid, x-lines,
    horizontal-lines and vertical-lines. *)
Lemma registry_names_not_as_stated :
  ~ (forall name : string,
       is_Some (ShapeFactory.AVAILABLE_SHAPES !! name) <->
       name ∈ ["circle"; "bullseye"; "dot-grid"; "x-lines";
               "horizontal-lines"; "vertical-lines"]%string).
Proof.
  intros H. destruct (H "dots"%string) as [Hin _].
  assert (Hd : is_Some (ShapeFactory.AVAILABLE_SHAPES !! "dots"%string))
    by (apply registry_lookup; do 2 right; left).
  specialize (Hin Hd). revert Hin.
  rewrite !elem_of_cons, elem_of_nil. intros H'. decompose [or] H'; discriminate || done.
Qed.

(** C8, amended. The names of the registry are exactly circle, bullseye,
    dots, x, h_lines and v_lines: [generate_shape] raises its [ValueError]
    for every other name, and for no name of the six. *)
Theorem registry_names_exact (self : ShapeFactory.t) (name : string) :
  (is_Some (ShapeFactory.AVAILABLE_SHAPES !! name) <-> name ∈ registered_names) /\
  (ShapeFactory.generate_shape self name
     = Raise (ValueError ("No such shape as " +:+ name +:+ "."))
   <-> name ∉ registered_names).
Proof.
  split; [apply registry_lookup|]. split.
  - intros Hraise Hin. revert Hraise. unfold registered_names in Hin.
    rewrite !elem_of_cons, elem_of_nil in Hin.
    decompose [or] Hin; subst; try done; discriminate.
  - intros Hnot. apply generate_shape_unknown.
    rewrite <- registry_lookup in Hnot. by apply eq_None_not_Some.
Qed.

(** C9. For every dataset, the factory builds for the name "circle" a Circle
    whose centre is the pair of the means of the columns [x] and [y]. *)
Theorem circle_center_is_mean (data : DataFrame) :
  exists c : Circle.t,
    ShapeFactory.generate_shape (ShapeFactory.__init__ data) "circle"
      = Ok (ACircle c) /\
    Circle.cx c = Series_mean (df_x data) /\
    Circle.cy c = Series_mean (df_y data).
Proof. exists (Circle.__init__ data). repeat split. Qed.

(** C10. The radius of a constructed Circle is the constant 30, whatever the
    dataset: two datasets give circles of the same radius. *)
Theorem circle_radius_constant (data data' : DataFrame) :
  Circle.new [PData data] = Ok (Circle.__init__ data) /\
  Circle.r (Circle.__init__ data) = 30 /\
  Circle.r (Circle.__init__ data) = Circle.r (Circle.__init__ data').
Proof. repeat split. Qed.

Lemma Circle_metric (c : Circle.t) (x y : R) :
  exists d, Circle.distance c x y = Ok d /\ 0 <= d /\ (d = 0 <-> on_circle c (x, y)).
Proof.
  rewrite Circle_distance_eq. eexists. split; [reflexivity|].
  split; [apply Rabs_pos|]. rewrite Rabs_zero. unfold on_circle. lra.
Qed.

Lemma inside_segment_from (p : point) (l : line) :
  inside_segment p l -> ~ degenerate l /\ on_segment_from 0.00001 p l.
Proof.
  intros (Hnd & Hu & t & Ht & ->). split; [exact Hnd|].
  rewrite projection_along in Hu by exact Hnd. exists t. split; [lra | done].
Qed.

Lemma Lines_metric (tag : Lines.t -> Shape) (self : Lines.t) (x y : R) :
  tag = AXLines \/ tag = AHorizontalLines \/ tag = AVerticalLines ->
  Lines.lines self <> [] ->
  exists d, distance (tag self) x y = Ok d /\ 0 <= d /\
    (d = 0 -> on_outline (tag self) (x, y)) /\
    (on_inner_outline (tag self) (x, y) -> d = 0).
Proof.
  intros Htag Hne.
  destruct (Lines_distance_spec self x y Hne) as (d & Hd & Hpos & Hzero & Hon).
  exists d.
  assert (Hout : d = 0 -> exists l, l ∈ Lines.lines self /\ on_segment (x, y) l).
  { intros Hz. destruct (Hzero Hz) as (l & Hl & _ & Hseg).
    exists l. split; [done|]. apply (on_segment_weaken 0.00001); [lra | done]. }
  assert (Hproj : (exists l, l ∈ Lines.lines self /\ inside_segment (x, y) l)
                  -> d = 0).
  { intros (l & Hl & Hin). apply inside_segment_from in Hin as [Hnd Hseg].
    by apply (Hon l). }
  destruct Htag as [-> | [-> | ->]]; cbn [distance on_outline on_inner_outline];
    repeat split; assumption.
Qed.

(** The sentinel holds also on the segment itself. The X of a dataset whose
    rows are all the point (5,5) has the segment [[(5,5),(5,5)]]; the point
    (5,5) lies on it, and its distance to the shape is 9999. *)
Lemma degenerate_outline_not_at_zero :
  let data := {| df_x := [5; 5]; df_y := [5; 5] |} in
  exists shape,
    ShapeFactory.generate_shape (ShapeFactory.__init__ data) "x" = Ok shape /\
    on_outline shape (5, 5) /\
    distance shape 5 5 = Ok 9999 /\
    distance shape 5 5 <> Ok 0.
Proof.
  intros data. exists (AXLines (XLines.__init__ data)).
  assert (Hmin : Rmin 5 5 = 5) by (apply Rmin_left; lra).
  assert (Hmax : Rmax 5 5 = 5) by (apply Rmax_left; lra).
  assert (Hx : XLines.__init__ data
               = Lines.__init__ [((5, 5), (5, 5)); ((5, 5), (5, 5))]).
  { unfold XLines.__init__, DataFrame_min, DataFrame_max, Series_min, Series_max.
    cbn. by rewrite Hmin, Hmax. }
  assert (Hdeg : degenerate ((5, 5), (5, 5))).
  { unfold degenerate. cbn [fst snd]. rewrite dist_horizontal.
    rewrite Rabs_right by lra. lra. }
  assert (Hd : distance (AXLines (XLines.__init__ data)) 5 5 = Ok 9999).
  { rewrite Hx. cbn [distance]. unfold Lines.distance. cbn [Lines.lines Lines.__init__ mapM].
    rewrite !segment_degenerate by exact Hdeg. rewrite !bind_Ok. cbn.
    f_equal. apply Rmin_left. lra. }
  split; [reflexivity|]. split; [|split].
  - cbn [on_outline]. rewrite Hx. exists ((5, 5), (5, 5)). split; [left|].
    exists 0. split; [lra|]. unfold along. cbn [fst snd]. f_equal; lra.
  - exact Hd.
  - rewrite Hd. intros [= H]. lra.
Qed.

(** C7, amended. For every dataset that has a row, the circle and the three
    line figures are built and answer at every point a distance that is not
    negative. The distance is zero only on the outline of the shape. It is
    zero on the whole circle and, on a line figure, at every point that lies
    on a segment that is not degenerate and whose projection parameter, as
    [distance_point_to_line] computes it, is strictly between 0.00001 and
    1. *)
Theorem built_shape_distance (data : DataFrame) (name : string) (x y : R) :
  has_rows data ->
  name ∈ metric_names ->
  exists shape d,
    ShapeFactory.generate_shape (ShapeFactory.__init__ data) name = Ok shape /\
    distance shape x y = Ok d /\
    0 <= d /\
    (d = 0 -> on_outline shape (x, y)) /\
    (on_inner_outline shape (x, y) -> d = 0).
Proof.
  intros _. unfold metric_names. rewrite !elem_of_cons, elem_of_nil.
  intros [-> | [-> | [-> | [-> | []]]]].
  - exists (ACircle (Circle.__init__ data)).
    destruct (Circle_metric (Circle.__init__ data) x y) as (d & Hd & Hpos & Hz).
    exists d. cbn [distance on_outline on_inner_outline].
    repeat split; try done; apply Hz.
  - destruct (Lines_metric AXLines (XLines.__init__ data) x y) as (d & Hd);
      [auto | done |]. by exists (AXLines (XLines.__init__ data)), d.
  - destruct (Lines_metric AHorizontalLines (HorizontalLines.__init__ data) x y)
      as (d & Hd); [auto | done |].
    by exists (AHorizontalLines (HorizontalLines.__init__ data)), d.
  - destruct (Lines_metric AVerticalLines (VerticalLines.__init__ data) x y)
      as (d & Hd); [auto | done |].
    by exists (AVerticalLines (VerticalLines.__init__ data)), d.
Qed.

Lemma built_shape_distance_witness :
  let data := {| df_x := [1; 2]; df_y := [3; 4] |} in
  exists shape d,
    ShapeFactory.generate_shape (ShapeFactory.__init__ data) "h_lines" = Ok shape /\
    distance shape 50 10 = Ok d /\
    0 <= d /\
    (d = 0 -> on_outline shape (50, 10)) /\
    (on_inner_outline shape (50, 10) -> d = 0).
Proof.
  intros data. apply (built_shape_distance data "h_lines" 50 10).
  - split; discriminate.
  - unfold metric_names. do 2 right. left.
Defined.

(** ** Further evaluations *)

(** The end point of a segment of the horizontal lines is at distance 0 of
    the shape. *)
Example h_lines_end_point (data : DataFrame) :
  distance (AHorizontalLines (HorizontalLines.__init__ data)) 100 10 = Ok 0.
Proof.
  destruct (Lines_distance_spec (HorizontalLines.__init__ data) 100 10)
    as (d & Hd & _ & _ & Hz); [done|].
  cbn [distance]. rewrite Hd. f_equal. apply (Hz h_line_10); [left | |].
  - exact h_line_10_not_degenerate.
  - exists 1. split; [lra|]. unfold along, h_line_10. cbn [fst snd]. f_equal; lra.
Qed.

(** The start point of a segment falls in the end-point branch, which
    answers the length of the segment. *)
Example segment_start_point :
  Lines.distance_point_to_line (0, 10) h_line_10 = Ok 100.
Proof.
  rewrite segment_endpoint;
    [| exact h_line_10_not_degenerate | left; rewrite h_line_10_projection; lra].
  unfold h_line_10. cbn [fst snd]. rewrite !dist_horizontal.
  rewrite Rabs_right by lra. rewrite Rabs_left1 by lra.
  f_equal. rewrite Rmax_right; lra.
Qed.

(** No segment makes [distance_point_to_line] raise: the division is by the
    square of a length that is at least 0.00000001. *)
Example distance_point_to_line_total (p : point) (l : line) :
  forall e, Lines.distance_point_to_line p l <> Raise e.
Proof.
  intros e. destruct (segment_nonneg p l) as (d & Hd & _). rewrite Hd. discriminate.
Qed.

Example mean_of_three : Series_mean [1; 2; 6] = 3.
Proof. unfold Series_mean, Series_sum. cbn. lra. Qed.

Example median_of_three : Series_quantile [6; 1; 2] [0.5] = [2].
Proof.
  unfold Series_quantile, quantile1. cbn [map length INR].
  replace ((1 + 1 + 1 - 1) * 0.5) with (INR 1) by (cbn; lra).
  unfold frac_part. rewrite Int_part_INR, Nat2Z.id.
  change (Z.of_nat 1) with 1%Z. cbn [INR].
  unfold sort_values. cbn [foldr insert_sorted].
  repeat (cbn [insert_sorted]; destruct (Rle_dec _ _); try lra).
  cbn. f_equal. lra.
Qed.

(** ** The distance methods of Bullseye and Dots on well-formed instances *)

Lemma mapM_Ok_map {A B} (f : A -> result B) (g : A -> B) (l : list A) :
  (forall a, a ∈ l -> f a = Ok (g a)) -> mapM f l = Ok (map g l).
Proof.
  induction l as [|a l IH]; intros Hf; [reflexivity|].
  cbn. rewrite Hf, bind_Ok by left.
  cbn in IH. rewrite IH by (intros; apply Hf; by right). reflexivity.
Qed.

(** On an instance that holds two circles, [Bullseye.distance] is the
    smaller of the distances of the two circles. *)
Example Bullseye_distance_of_two (c1 c2 : Circle.t) (x y d1 d2 : R) :
  Circle.distance c1 x y = Ok d1 ->
  Circle.distance c2 x y = Ok d2 ->
  Bullseye.distance {| Bullseye.circles := [c1; c2] |} x y = Ok (Rmin d1 d2).
Proof.
  intros H1 H2. unfold Bullseye.distance. cbn [Bullseye.circles mapM].
  rewrite H1, bind_Ok, H2, bind_Ok. reflexivity.
Qed.

(** On an instance that holds points, [Dots.distance] is the smallest of the
    Euclidean distances to them. *)
Example Dots_distance_of_points (p : point) (ps : list point) (x y : R) :
  Dots.distance {| Dots.dots := map (fun q => [Num q.1; Num q.2]) (p :: ps) |} x y
    = Ok (fold_left Rmin (map (fun q => dist q (x, y)) ps) (dist p (x, y))).
Proof.
  unfold Dots.distance. cbn [Dots.dots].
  rewrite (mapM_Ok_map _ (fun dot => match dot with
                                     | [Num a; Num b] => dist (a, b) (x, y)
                                     | _ => 0
                                     end)).
  - rewrite bind_Ok, map_map. reflexivity.
  - intros dot Hin. apply list_elem_of_In, in_map_iff in Hin as (q & <- & _).
    apply (euclidean_vec q (x, y)).
Qed.

(** Each class that builds answers to the name it is registered under. *)
Example registered_name_is_repr (data : DataFrame) (name : string) (shape : Shape) :
  ShapeFactory.generate_shape (ShapeFactory.__init__ data) name = Ok shape ->
  __repr__ shape = name.
Proof.
  intros H.
  assert (Hin : name ∈ registered_names).
  { apply registry_lookup. destruct (ShapeFactory.AVAILABLE_SHAPES !! name) eqn:E; [done|].
    rewrite generate_shape_unknown in H by exact E. discriminate. }
  unfold registered_names in Hin. rewrite !elem_of_cons, elem_of_nil in Hin.
  decompose [or] Hin; subst; try done; cbn in H; by injection H as <-.
Qed.

(** ** Further properties of [distance_point_to_line] *)

Lemma dist_sym (a b : point) : dist a b = dist b a.
Proof. unfold dist. f_equal. ring. Qed.

Lemma Rle_of_sqr (u v : R) : 0 <= v -> u * u <= v * v -> u <= v.
Proof. intros Hv H. apply Rsqr_incr_0_var; [exact H | exact Hv]. Qed.




Lemma sqr_le_compat (u v : R) : 0 <= u -> u <= v -> u * u <= v * v.
Proof. intros Hu Huv. apply Rmult_le_compat; lra. Qed.

(** A point of the segment is no farther than the farther end point. *)
Lemma segment_within_endpoints (p : point) (l : line) (t : R) :
  0 <= t <= 1 ->
  dist p (along l t) <= Rmax (dist p l.1) (dist p l.2).
Proof.
  intros Ht. set (M := Rmax (dist p l.1) (dist p l.2)).
  pose proof (dist_nonneg p l.1) as Ha0. pose proof (dist_nonneg p l.2) as Hb0.
  pose proof (Rmax_l (dist p l.1) (dist p l.2)) as HaM.
  pose proof (Rmax_r (dist p l.1) (dist p l.2)) as HbM. fold M in HaM, HbM.
  pose proof (sqr_le_compat _ _ Ha0 HaM) as Ha. pose proof (sqr_le_compat _ _ Hb0 HbM) as Hb.
  apply Rle_of_sqr; [lra|]. rewrite dist_sqr in *.
  destruct p as [px py], l as [[x1 y1] [x2 y2]]. cbn [fst snd along] in *.
  pose proof (sum_sqr_nonneg (x1 - x2) (y1 - y2)) as HS.
  match goal with |- ?L <= _ =>
    replace L with
      ((1 - t) * ((px - x1) * (px - x1) + (py - y1) * (py - y1))
       + t * ((px - x2) * (px - x2) + (py - y2) * (py - y2))
       - t * (1 - t) * ((x1 - x2) * (x1 - x2) + (y1 - y2) * (y1 - y2)))
      by ring
  end.
  assert (H1 : (1 - t) * ((px - x1) * (px - x1) + (py - y1) * (py - y1))
               <= (1 - t) * (M * M)) by (apply Rmult_le_compat_l; lra).
  assert (H2 : t * ((px - x2) * (px - x2) + (py - y2) * (py - y2)) <= t * (M * M))
    by (apply Rmult_le_compat_l; lra).
  assert (H3 : 0 <= t * (1 - t) * ((x1 - x2) * (x1 - x2) + (y1 - y2) * (y1 - y2))).
  { apply Rmult_le_pos; [apply Rmult_le_pos; lra | exact HS]. }
  lra.
Qed.

Lemma along_0 (l : line) : along l 0 = l.1.
Proof. destruct l as [[x1 y1] [x2 y2]]. unfold along. cbn [fst snd]. f_equal; ring. Qed.

Lemma along_1 (l : line) : along l 1 = l.2.
Proof. destruct l as [[x1 y1] [x2 y2]]. unfold along. cbn [fst snd]. f_equal; ring. Qed.

Lemma dist_refl (a : point) : dist a a = 0.
Proof. by apply dist_zero. Qed.

(** X1. [distance_point_to_line] answers a number that is not negative for
    every point and every segment: it raises nothing, the division being by
    the square of a length of 0.00000001 at least. *)
Theorem segment_distance_defined (p : point) (l : line) :
  exists d, Lines.distance_point_to_line p l = Ok d /\ 0 <= d.
Proof. apply segment_nonneg. Qed.



(** X3. When the segment is not degenerate and the projection parameter is
    below 0.00001 or above 1, the result is the distance to one of the two
    end points, and no point of the segment is farther from the point than
    the result. *)
Theorem endpoint_distance_is_farthest (p : point) (l : line) :
  ~ degenerate l ->
  projection p l < 0.00001 \/ 1 < projection p l ->
  exists d, Lines.distance_point_to_line p l = Ok d /\
    (d = dist p l.1 \/ d = dist p l.2) /\
    (forall q, on_segment q l -> dist p q <= d).
Proof.
  intros Hnd Hu. exists (Rmax (dist p l.1) (dist p l.2)).
  split; [by apply segment_endpoint|]. split.
  - unfold Rmax. destruct (Rle_dec _ _); auto.
  - intros q (t & Ht & ->). by apply segment_within_endpoints.
Qed.

Lemma endpoint_distance_is_farthest_witness :
  exists d, Lines.distance_point_to_line (-10, 10) h_line_10 = Ok d /\
    (d = dist (-10, 10) h_line_10.1 \/ d = dist (-10, 10) h_line_10.2) /\
    (forall q, on_segment q h_line_10 -> dist (-10, 10) q <= d).
Proof.
  apply (endpoint_distance_is_farthest (-10, 10) h_line_10).
  - exact h_line_10_not_degenerate.
  - left. rewrite h_line_10_projection. lra.
Defined.

(** X4. A distance of zero comes from the projection branch only, at a
    point of the segment; and a point that lies on a segment that is not
    degenerate, with a projection parameter strictly between 0.00001 and 1,
    is at distance zero. *)
Theorem segment_distance_zero (p : point) (l : line) :
  (Lines.distance_point_to_line p l = Ok 0 ->
   ~ degenerate l /\ 0.00001 <= projection p l <= 1 /\ on_segment p l) /\
  (inside_segment p l -> Lines.distance_point_to_line p l = Ok 0).
Proof.
  split.
  - intros H. destruct (segment_zero_on p l H) as (Hnd & t & Ht & ->).
    split; [exact Hnd|]. rewrite projection_along by exact Hnd.
    split; [exact Ht|]. exists t. split; [lra | done].
  - intros Hin. apply inside_segment_from in Hin as [Hnd Hon].
    by apply segment_on_zero.
Qed.

Lemma h_line_10_inside : inside_segment (50, 10) h_line_10.
Proof.
  split; [exact h_line_10_not_degenerate|]. rewrite h_line_10_projection.
  split; [lra|]. exists (1 / 2). split; [lra|].
  unfold along, h_line_10. cbn [fst snd]. f_equal; lra.
Qed.

Lemma segment_distance_zero_witness :
  Lines.distance_point_to_line (50, 10) h_line_10 = Ok 0.
Proof.
  apply (proj2 (segment_distance_zero (50, 10) h_line_10)).
  exact h_line_10_inside.
Defined.

(** X5. The start point of a segment that is not degenerate is not at
    distance 0: it falls in the end-point branch, and its distance is the
    length of the segment. *)
Theorem segment_start (l : line) :
  ~ degenerate l ->
  Lines.distance_point_to_line l.1 l = Ok (dist l.1 l.2) /\
  Lines.distance_point_to_line l.1 l <> Ok 0.
Proof.
  intros Hnd.
  assert (H : Lines.distance_point_to_line l.1 l = Ok (dist l.1 l.2)).
  { rewrite segment_endpoint; [| exact Hnd |].
    - rewrite dist_refl. f_equal. apply Rmax_right, dist_nonneg.
    - left. rewrite <- (along_0 l) at 1. rewrite projection_along by exact Hnd. lra. }
  split; [exact H|]. rewrite H. intros [= Hz]. unfold degenerate in Hnd. lra.
Qed.

Lemma segment_start_witness :
  Lines.distance_point_to_line h_line_10.1 h_line_10
    = Ok (dist h_line_10.1 h_line_10.2) /\
  Lines.distance_point_to_line h_line_10.1 h_line_10 <> Ok 0.
Proof. apply (segment_start h_line_10). exact h_line_10_not_degenerate. Defined.

(** ** Further properties of line figures *)

Lemma Lines_distance_min (self : Lines.t) (x y : R) :
  Lines.lines self <> [] ->
  exists d, Lines.distance self x y = Ok d /\
    (exists l, l ∈ Lines.lines self /\ Lines.distance_point_to_line (x, y) l = Ok d) /\
    (forall l, l ∈ Lines.lines self ->
       exists d', Lines.distance_point_to_line (x, y) l = Ok d' /\ d <= d').
Proof.
  intros Hne. unfold Lines.distance.
  destruct (mapM_Ok_Forall2 (fun l => Lines.distance_point_to_line (x, y) l)
              (fun l d => Lines.distance_point_to_line (x, y) l = Ok d)
              (Lines.lines self)) as (ds & Hds & HF).
  { intros l _. destruct (segment_nonneg (x, y) l) as (d & Hd & _). eauto. }
  rewrite Hds, bind_Ok.
  destruct (py_min_spec ds) as (m & Hm & Hin & Hle).
  { intros ->. inversion HF. congruence. }
  exists m. split; [exact Hm|]. split.
  - apply (Forall2_elem_of_r _ _ _ _ HF Hin).
  - intros l Hl. destruct (Forall2_elem_of_l _ _ _ _ HF Hl) as (d' & Hd' & Heq).
    exists d'. split; [exact Heq|]. rewrite Forall_forall in Hle. by apply Hle.
Qed.

(** X6. The distance to a line figure that has a line is the smallest of the
    distances to its segments: it is the distance to one of them, and that
    to every other one is as large. *)
Theorem Lines_distance_is_minimum (self : Lines.t) (x y : R) :
  Lines.lines self <> [] ->
  exists d, Lines.distance self x y = Ok d /\
    (exists l, l ∈ Lines.lines self /\ Lines.distance_point_to_line (x, y) l = Ok d) /\
    (forall l, l ∈ Lines.lines self ->
       exists d', Lines.distance_point_to_line (x, y) l = Ok d' /\ d <= d').
Proof. apply Lines_distance_min. Qed.

Lemma Lines_distance_is_minimum_witness :
  let self := Lines.__init__ [h_line_10; ((5, 5), (5, 5))] in
  exists d, Lines.distance self 50 20 = Ok d /\
    (exists l, l ∈ Lines.lines self /\ Lines.distance_point_to_line (50, 20) l = Ok d) /\
    (forall l, l ∈ Lines.lines self ->
       exists d', Lines.distance_point_to_line (50, 20) l = Ok d' /\ d <= d').
Proof.
  intros self. apply (Lines_distance_is_minimum self 50 20). discriminate.
Defined.

(** X7. The distance to a line figure raises exactly when the figure has no
    line, and then it is the [ValueError] of [min] on an empty sequence. *)
Theorem Lines_distance_raises_iff_empty (self : Lines.t) (x y : R) (e : exn) :
  Lines.distance self x y = Raise e <->
  Lines.lines self = [] /\ e = ValueError "min() arg is an empty sequence".
Proof.
  split.
  - intros H. destruct (Lines.lines self) as [|l ls] eqn:E.
    + unfold Lines.distance in H. rewrite E in H. cbn in H. by injection H as <-.
    + destruct (Lines_distance_min self x y) as (d & Hd & _); [by rewrite E|].
      rewrite Hd in H. discriminate.
  - intros [E ->]. unfold Lines.distance. by rewrite E.
Qed.

(** X8. A degenerate segment caps the distance to the figure at the sentinel
    9999, however far the point is. *)
Theorem degenerate_segment_caps (self : Lines.t) (l : line) (x y : R) :
  l ∈ Lines.lines self -> degenerate l ->
  exists d, Lines.distance self x y = Ok d /\ d <= 9999.
Proof.
  intros Hl Hdeg.
  destruct (Lines_distance_min self x y) as (d & Hd & _ & Hle).
  { intros E. rewrite E in Hl. by apply elem_of_nil in Hl. }
  exists d. split; [exact Hd|].
  destruct (Hle l Hl) as (d' & Hd' & Hdd').
  rewrite segment_degenerate in Hd' by exact Hdeg. injection Hd' as <-. exact Hdd'.
Qed.

Lemma degenerate_is_5_5 : degenerate ((5, 5), (5, 5)).
Proof.
  unfold degenerate. cbn [fst snd]. rewrite dist_refl. lra.
Qed.

Lemma degenerate_segment_caps_witness :
  let self := Lines.__init__ [h_line_10; ((5, 5), (5, 5))] in
  exists d, Lines.distance self 0 20000 = Ok d /\ d <= 9999.
Proof.
  intros self. apply (degenerate_segment_caps self ((5, 5), (5, 5)) 0 20000).
  - right. left.
  - exact degenerate_is_5_5.
Defined.

Lemma dist_transpose (a b : point) : dist (transpose a) (transpose b) = dist a b.
Proof. unfold dist, transpose. cbn [fst snd]. f_equal. ring. Qed.

Lemma projection_transpose (p : point) (l : line) :
  projection (transpose p) (transpose_line l) = projection p l.
Proof.
  unfold projection, transpose_line. cbn [fst snd]. rewrite dist_transpose.
  unfold transpose. cbn [fst snd]. f_equal. ring.
Qed.

Lemma along_transpose (l : line) (t : R) :
  along (transpose_line l) t = transpose (along l t).
Proof. reflexivity. Qed.

Lemma segment_transpose (p : point) (l : line) :
  Lines.distance_point_to_line (transpose p) (transpose_line l)
    = Lines.distance_point_to_line p l.
Proof.
  assert (Hdeg : degenerate (transpose_line l) <-> degenerate l).
  { unfold degenerate, transpose_line. cbn [fst snd]. by rewrite dist_transpose. }
  destruct (Rlt_dec (dist l.1 l.2) 0.00000001) as [Hd | Hnd].
  - rewrite !segment_degenerate; [done | exact Hd | by apply Hdeg].
  - rewrite !segment_unfold; [| exact Hnd | by rewrite Hdeg].
    rewrite projection_transpose, along_transpose.
    unfold transpose_line. cbn [fst snd]. by rewrite !dist_transpose.
Qed.

Lemma mapM_map {A B C} (f : B -> result C) (g : A -> B) (l : list A) :
  mapM f (map g l) = mapM (fun a => f (g a)) l.
Proof.
  induction l as [|a l IH]; [reflexivity|]. cbn. cbn in IH. by rewrite IH.
Qed.

Lemma mapM_ext_result {A B} (f g : A -> result B) (l : list A) :
  (forall a, f a = g a) -> mapM f l = mapM g l.
Proof.
  intros Hfg. induction l as [|a l IH]; [reflexivity|].
  cbn. cbn in IH. by rewrite Hfg, IH.
Qed.

Lemma Lines_distance_transpose (ls : list line) (x y : R) :
  Lines.distance (Lines.__init__ (map transpose_line ls)) y x
    = Lines.distance (Lines.__init__ ls) x y.
Proof.
  unfold Lines.distance, Lines.__init__. cbn [Lines.lines]. rewrite mapM_map.
  rewrite (mapM_ext_result _ (fun l => Lines.distance_point_to_line (x, y) l));
    [done|].
  intros l. apply (segment_transpose (x, y) l).
Qed.

Lemma vertical_horizontal (data data' : DataFrame) (x y : R) :
  distance (AVerticalLines (VerticalLines.__init__ data)) x y
    = distance (AHorizontalLines (HorizontalLines.__init__ data')) y x.
Proof.
  cbn [distance].
  apply (Lines_distance_transpose
           (map (fun y => ((0, y), (100, y))) [10; 30; 50; 70; 90]) y x).
Qed.

(** X9. The vertical lines are the horizontal lines mirrored in the diagonal,
    whatever the two datasets: the distance of [(x, y)] to the vertical lines
    is the distance of [(y, x)] to the horizontal lines. *)
Theorem vertical_is_transposed_horizontal (data data' : DataFrame) (x y : R) :
  distance (AVerticalLines (VerticalLines.__init__ data)) x y
    = distance (AHorizontalLines (HorizontalLines.__init__ data')) y x.
Proof. apply vertical_horizontal. Qed.

Lemma h_segment_band (c x y : R) :
  0.001 <= x <= 100 ->
  Lines.distance_point_to_line (x, y) ((0, c), (100, c)) = Ok (Rabs (y - c)).
Proof.
  intros Hx.
  assert (Hnd : ~ degenerate ((0, c), (100, c))).
  { unfold degenerate. cbn [fst snd]. rewrite dist_horizontal.
    rewrite Rabs_left1 by lra. lra. }
  assert (Hu : projection (x, y) ((0, c), (100, c)) = x / 100).
  { rewrite projection_horizontal by lra. field. }
  rewrite segment_projected; [| exact Hnd | rewrite Hu; lra].
  rewrite Hu. unfold along. cbn [fst snd].
  replace (0 + x / 100 * (100 - 0)) with x by field.
  replace (c + x / 100 * (c - c)) with c by field.
  by rewrite dist_vertical.
Qed.

(** X10. Between the abscissas 0.001 and 100 the distance to the horizontal
    lines is the vertical distance to the nearest of the ordinates 10, 30,
    50, 70 and 90; likewise for the vertical lines, with the coordinates
    exchanged. *)
Theorem axis_lines_in_band (data : DataFrame) (t s : R) :
  0.001 <= t <= 100 ->
  let nearest :=
    Rmin (Rmin (Rmin (Rmin (Rabs (s - 10)) (Rabs (s - 30))) (Rabs (s - 50)))
               (Rabs (s - 70)))
         (Rabs (s - 90)) in
  distance (AHorizontalLines (HorizontalLines.__init__ data)) t s = Ok nearest /\
  distance (AVerticalLines (VerticalLines.__init__ data)) s t = Ok nearest.
Proof.
  intros Ht nearest.
  assert (H : distance (AHorizontalLines (HorizontalLines.__init__ data)) t s
              = Ok nearest).
  { cbn [distance]. unfold Lines.distance.
    rewrite (mapM_Ok_map _ (fun l : line => Rabs (s - l.1.2))).
    - reflexivity.
    - intros l Hl. apply list_elem_of_In, in_map_iff in Hl as (c & <- & _).
      by apply h_segment_band. }
  split; [exact H|]. by rewrite (vertical_horizontal data data s t).
Qed.

Lemma axis_lines_in_band_witness :
  let data := {| df_x := [1; 2]; df_y := [3; 4] |} in
  let nearest :=
    Rmin (Rmin (Rmin (Rmin (Rabs (20 - 10)) (Rabs (20 - 30))) (Rabs (20 - 50)))
               (Rabs (20 - 70)))
         (Rabs (20 - 90)) in
  distance (AHorizontalLines (HorizontalLines.__init__ data)) 50 20 = Ok nearest /\
  distance (AVerticalLines (VerticalLines.__init__ data)) 20 50 = Ok nearest.
Proof.
  intros data. apply (axis_lines_in_band data 50 20). lra.
Defined.

Lemma Lines_zero_on (self : Lines.t) (l : line) (x y : R) :
  l ∈ Lines.lines self -> ~ degenerate l -> on_segment_from 0.00001 (x, y) l ->
  Lines.distance self x y = Ok 0.
Proof.
  intros Hl Hnd Hon.
  destruct (Lines_distance_spec self x y) as (d & Hd & _ & _ & Hz).
  { intros E. rewrite E in Hl. by apply elem_of_nil in Hl. }
  rewrite Hd. f_equal. by apply (Hz l).
Qed.

(** X11. When the data has a row and the diagonal of its bounding box is not
    degenerate, the X shape is at distance 0 of every point that lies on one
    of its two diagonals with a projection parameter strictly between 0.00001
    and 1; the centre of the box is such a point. *)
Theorem x_shape_diagonals (data : DataFrame) :
  let xmin := Series_min (df_x data) in
  let ymin := Series_min (df_y data) in
  let xmax := Series_max (df_x data) in
  let ymax := Series_max (df_y data) in
  has_rows data ->
  ~ degenerate ((xmin, ymin), (xmax, ymax)) ->
  (forall x y l,
     l = ((xmin, ymin), (xmax, ymax)) \/ l = ((xmin, ymax), (xmax, ymin)) ->
     inside_segment (x, y) l ->
     distance (AXLines (XLines.__init__ data)) x y = Ok 0) /\
  inside_segment ((xmin + xmax) / 2, (ymin + ymax) / 2) ((xmin, ymin), (xmax, ymax)) /\
  distance (AXLines (XLines.__init__ data)) ((xmin + xmax) / 2) ((ymin + ymax) / 2)
    = Ok 0.
Proof.
  intros xmin ymin xmax ymax _ Hnd.
  assert (Hx : XLines.__init__ data
               = Lines.__init__ [((xmin, ymin), (xmax, ymax));
                                 ((xmin, ymax), (xmax, ymin))]) by reflexivity.
  assert (Hall : forall x y l,
     l = ((xmin, ymin), (xmax, ymax)) \/ l = ((xmin, ymax), (xmax, ymin)) ->
     inside_segment (x, y) l ->
     distance (AXLines (XLines.__init__ data)) x y = Ok 0).
  { intros x y l Hl Hin. apply inside_segment_from in Hin as [Hndl Hon].
    cbn [distance]. rewrite Hx. apply (Lines_zero_on _ l); [|done..].
    destruct Hl as [-> | ->]; [left | right; left]. }
  assert (Hc : inside_segment ((xmin + xmax) / 2, (ymin + ymax) / 2)
                 ((xmin, ymin), (xmax, ymax))).
  { assert (Hal : along ((xmin, ymin), (xmax, ymax)) (1 / 2)
                  = ((xmin + xmax) / 2, (ymin + ymax) / 2))
      by (unfold along; cbn [fst snd]; f_equal; field).
    split; [exact Hnd|]. rewrite <- Hal. rewrite projection_along by exact Hnd.
    split; [lra|]. exists (1 / 2). split; [lra | done]. }
  split; [exact Hall|]. split; [exact Hc|].
  apply (Hall _ _ ((xmin, ymin), (xmax, ymax))); [by left | exact Hc].
Qed.

Lemma x_shape_diagonals_witness :
  let data := {| df_x := [0; 100]; df_y := [7; 7] |} in
  let xmin := Series_min (df_x data) in
  let ymin := Series_min (df_y data) in
  let xmax := Series_max (df_x data) in
  let ymax := Series_max (df_y data) in
  (forall x y l,
     l = ((xmin, ymin), (xmax, ymax)) \/ l = ((xmin, ymax), (xmax, ymin)) ->
     inside_segment (x, y) l ->
     distance (AXLines (XLines.__init__ data)) x y = Ok 0) /\
  inside_segment ((xmin + xmax) / 2, (ymin + ymax) / 2) ((xmin, ymin), (xmax, ymax)) /\
  distance (AXLines (XLines.__init__ data)) ((xmin + xmax) / 2) ((ymin + ymax) / 2)
    = Ok 0.
Proof.
  intros data. apply (x_shape_diagonals data).
  - split; discriminate.
  - unfold degenerate, data, Series_min, Series_max. cbn [fst snd df_x df_y fold_left].
    rewrite (Rmin_left 0 100), (Rmax_right 0 100), (Rmin_left 7 7), (Rmax_left 7 7)
      by lra.
    rewrite dist_horizontal, Rabs_left1 by lra. lra.
Defined.

(** ** Further properties of the factory *)

Lemma generate_shape_outcome (self : ShapeFactory.t) (name : string) :
  (exists shape, ShapeFactory.generate_shape self name = Ok shape /\ __repr__ shape = name) \/
  (name = "bullseye"%string /\ ShapeFactory.generate_shape self name = Raise TypeError) \/
  ((name ∉ registered_names) /\
   ShapeFactory.generate_shape self name
     = Raise (ValueError ("No such shape as " +:+ name +:+ "."))).
Proof.
  destruct (ShapeFactory.AVAILABLE_SHAPES !! name) eqn:E.
  - assert (Hin : name ∈ registered_names) by (apply registry_lookup; eauto).
    unfold registered_names in Hin. rewrite !elem_of_cons, elem_of_nil in Hin.
    decompose [or] Hin; subst; try done;
      first [ left; eexists; split; reflexivity | right; left; split; reflexivity ].
  - right. right. split.
    + rewrite <- registry_lookup, E. by intros [? ?].
    + by apply generate_shape_unknown.
Qed.

(** X12. Whatever the name, [generate_shape] raises no [KeyError]: the only
    exceptions that leave it are the [ValueError] on an unregistered name and
    the [TypeError] of the Bullseye constructor. *)
Theorem generate_shape_exceptions (self : ShapeFactory.t) (name : string) (e : exn) :
  ShapeFactory.generate_shape self name = Raise e ->
  (e = TypeError /\ name = "bullseye"%string) \/
  (e = ValueError ("No such shape as " +:+ name +:+ ".") /\ name ∉ registered_names).
Proof.
  intros H. destruct (generate_shape_outcome self name)
    as [(shape & Hs & _) | [[-> Ht] | [Hn Hv]]].
  - rewrite Hs in H. discriminate.
  - rewrite Ht in H. injection H as <-. by left.
  - rewrite Hv in H. injection H as <-. by right.
Qed.

Lemma generate_shape_exceptions_witness :
  let self := ShapeFactory.__init__ {| df_x := [1; 2]; df_y := [3; 4] |} in
  (ValueError "No such shape as star." = TypeError /\ "star"%string = "bullseye"%string) \/
  (ValueError "No such shape as star." = ValueError ("No such shape as " +:+ "star" +:+ ".")
   /\ "star"%string ∉ registered_names).
Proof.
  intros self. apply (generate_shape_exceptions self "star"). reflexivity.
Defined.

(** X13. A shape that the factory builds answers, as its [__repr__], the name
    it was asked under. *)
Theorem built_shape_repr (data : DataFrame) (name : string) (shape : Shape) :
  ShapeFactory.generate_shape (ShapeFactory.__init__ data) name = Ok shape ->
  __repr__ shape = name.
Proof.
  intros H. destruct (generate_shape_outcome (ShapeFactory.__init__ data) name)
    as [(shape' & Hs & Hr) | [[_ Ht] | [_ Hv]]].
  - rewrite Hs in H. by injection H as <-.
  - rewrite Ht in H. discriminate.
  - rewrite Hv in H. discriminate.
Qed.

Lemma built_shape_repr_witness :
  let data := {| df_x := [1; 2]; df_y := [3; 4] |} in
  __repr__ (AHorizontalLines (HorizontalLines.__init__ data)) = "h_lines"%string.
Proof.
  intros data.
  apply (built_shape_repr data "h_lines" (AHorizontalLines (HorizontalLines.__init__ data))).
  reflexivity.
Defined.

(** ** The distance methods of Dots and Bullseye on well-formed instances *)

Lemma py_min_of_map {A} (g : A -> R) (a : A) (l : list A) :
  exists m, py_min (map g (a :: l)) = Ok m /\
    (exists a', a' ∈ a :: l /\ m = g a') /\
    (forall a', a' ∈ a :: l -> m <= g a').
Proof.
  destruct (py_min_spec (map g (a :: l))) as (m & Hm & Hin & Hle); [done|].
  exists m. split; [exact Hm|]. split.
  - apply list_elem_of_In, in_map_iff in Hin as (a' & <- & Hin).
    exists a'. split; [by apply list_elem_of_In | done].
  - intros a' Ha'. rewrite Forall_forall in Hle. apply Hle.
    apply list_elem_of_In, in_map_iff. exists a'. split; [done|].
    by apply list_elem_of_In.
Qed.

(** X14. On an instance whose dots are coordinate pairs, at least one,
    [Dots.distance] is the smallest of the Euclidean distances of the point
    to the dots: it is not negative, and it is zero exactly when the point is
    one of the dots. *)
Theorem Dots_distance_of_dots (p : point) (ps : list point) (x y : R) :
  exists d,
    Dots.distance {| Dots.dots := dots_of_points (p :: ps) |} x y = Ok d /\
    0 <= d /\
    (exists q, q ∈ p :: ps /\ d = dist q (x, y)) /\
    (forall q, q ∈ p :: ps -> d <= dist q (x, y)) /\
    (d = 0 <-> (x, y) ∈ p :: ps).
Proof.
  destruct (py_min_of_map (fun q => dist q (x, y)) p ps) as (m & Hm & Hin & Hle).
  exists m.
  assert (Hd : Dots.distance {| Dots.dots := dots_of_points (p :: ps) |} x y = Ok m).
  { unfold Dots.distance, dots_of_points. cbn [Dots.dots].
    rewrite (mapM_Ok_map _ (fun dot => match dot with
                                       | [Num a; Num b] => dist (a, b) (x, y)
                                       | _ => 0
                                       end)).
    - rewrite bind_Ok, map_map. exact Hm.
    - intros dot Hdot. apply list_elem_of_In, in_map_iff in Hdot as (q & <- & _).
      apply (euclidean_vec q (x, y)). }
  destruct Hin as (q0 & Hq0 & ->).
  split; [exact Hd|]. split; [apply dist_nonneg|]. split; [eauto|].
  split; [exact Hle|]. split.
  - intros Hz. apply dist_zero in Hz. by rewrite <- Hz.
  - intros Hin. specialize (Hle _ Hin). rewrite dist_refl in Hle.
    pose proof (dist_nonneg q0 (x, y)). lra.
Qed.

(** X15. On an instance that holds circles, at least one,
    [Bullseye.distance] is the smallest of the distances to the circles: it
    is not negative, and it is zero exactly when the point lies on one of
    the circles. *)
Theorem Bullseye_distance_of_circles (c : Circle.t) (cs : list Circle.t) (x y : R) :
  exists d,
    Bullseye.distance {| Bullseye.circles := c :: cs |} x y = Ok d /\
    0 <= d /\
    (exists c', c' ∈ c :: cs /\ Circle.distance c' x y = Ok d) /\
    (forall c', c' ∈ c :: cs ->
       exists d', Circle.distance c' x y = Ok d' /\ d <= d') /\
    (d = 0 <-> exists c', c' ∈ c :: cs /\ on_circle c' (x, y)).
Proof.
  set (g := fun c' : Circle.t =>
              Rabs (dist (Circle.cx c', Circle.cy c') (x, y) - Circle.r c')).
  destruct (py_min_of_map g c cs) as (m & Hm & Hin & Hle).
  exists m.
  assert (Hd : Bullseye.distance {| Bullseye.circles := c :: cs |} x y = Ok m).
  { unfold Bullseye.distance. cbn [Bullseye.circles].
    rewrite (mapM_Ok_map _ g); [by rewrite bind_Ok|].
    intros c' _. apply Circle_distance_eq. }
  destruct Hin as (c0 & Hc0 & Hm0).
  split; [exact Hd|]. split; [rewrite Hm0; apply Rabs_pos|]. split.
  { exists c0. split; [done|]. rewrite Circle_distance_eq. by rewrite Hm0. }
  split.
  { intros c' Hc'. exists (g c'). split; [apply Circle_distance_eq | by apply Hle]. }
  split.
  - intros Hz. exists c0. split; [done|].
    rewrite Hz in Hm0. symmetry in Hm0. unfold g in Hm0.
    apply (proj1 (Rabs_zero _)) in Hm0. unfold on_circle. lra.
  - intros (c' & Hc' & Hon). specialize (Hle _ Hc').
    assert (Hg : g c' = 0) by (apply Rabs_zero; unfold on_circle in Hon; lra).
    assert (Hpos : 0 <= g c0) by apply Rabs_pos.
    lra.
Qed.

(** ** The circle *)

Lemma cauchy_schwarz (u1 u2 v1 v2 : R) :
  u1 * v1 + u2 * v2 <= sqrt (u1 * u1 + u2 * u2) * sqrt (v1 * v1 + v2 * v2).
Proof.
  apply Rle_of_sqr.
  - apply Rmult_le_pos; apply sqrt_pos.
  - replace (sqrt (u1 * u1 + u2 * u2) * sqrt (v1 * v1 + v2 * v2)
             * (sqrt (u1 * u1 + u2 * u2) * sqrt (v1 * v1 + v2 * v2)))
      with (sqrt (u1 * u1 + u2 * u2) * sqrt (u1 * u1 + u2 * u2)
            * (sqrt (v1 * v1 + v2 * v2) * sqrt (v1 * v1 + v2 * v2))) by ring.
    rewrite !sqrt_sqrt by apply sum_sqr_nonneg.
    pose proof (Rle_0_sqr (u1 * v2 - u2 * v1)) as H. unfold Rsqr in H.
    replace ((u1 * u1 + u2 * u2) * (v1 * v1 + v2 * v2))
      with ((u1 * v1 + u2 * v2) * (u1 * v1 + u2 * v2)
            + (u1 * v2 - u2 * v1) * (u1 * v2 - u2 * v1)) by ring.
    lra.
Qed.

Lemma dist_triangle (a b c : point) : dist a c <= dist a b + dist b c.
Proof.
  pose proof (dist_nonneg a b). pose proof (dist_nonneg b c).
  apply Rle_of_sqr; [lra|].
  replace ((dist a b + dist b c) * (dist a b + dist b c))
    with (dist a b * dist a b + 2 * (dist a b * dist b c) + dist b c * dist b c)
    by ring.
  rewrite !dist_sqr.
  pose proof (cauchy_schwarz (a.1 - b.1) (a.2 - b.2) (b.1 - c.1) (b.2 - c.2)) as Hcs.
  fold (dist a b) in Hcs. fold (dist b c) in Hcs.
  replace ((a.1 - c.1) * (a.1 - c.1) + (a.2 - c.2) * (a.2 - c.2))
    with ((a.1 - b.1) * (a.1 - b.1) + (a.2 - b.2) * (a.2 - b.2)
          + 2 * ((a.1 - b.1) * (b.1 - c.1) + (a.2 - b.2) * (b.2 - c.2))
          + ((b.1 - c.1) * (b.1 - c.1) + (b.2 - c.2) * (b.2 - c.2))) by ring.
  lra.
Qed.

(** X16. The distance to a circle changes by no more than the point moves:
    for two points, the distances to the circle differ by at most the
    Euclidean distance of the points. *)
Theorem Circle_distance_lipschitz (c : Circle.t) (p q : point) :
  exists dp dq,
    Circle.distance c p.1 p.2 = Ok dp /\
    Circle.distance c q.1 q.2 = Ok dq /\
    Rabs (dp - dq) <= dist p q.
Proof.
  destruct p as [px py], q as [qx qy]. cbn [fst snd].
  do 2 eexists. split; [apply Circle_distance_eq|]. split; [apply Circle_distance_eq|].
  set (o := (Circle.cx c, Circle.cy c)).
  pose proof (dist_triangle o (qx, qy) (px, py)) as H1.
  pose proof (dist_triangle o (px, py) (qx, qy)) as H2.
  rewrite (dist_sym (qx, qy) (px, py)) in H1.
  eapply Rle_trans; [apply Rabs_triang_inv2|].
  apply Rabs_le. lra.
Qed.

(** X17. On coordinate pairs [_euclidean_distance] raises nothing and is a
    metric: not negative, zero exactly between equal points, symmetric, and
    subject to the triangle inequality. *)
Theorem euclidean_distance_metric (a b c : point) :
  exists dab dba dbc dac,
    _euclidean_distance (vec a) (vec b) = Ok dab /\
    _euclidean_distance (vec b) (vec a) = Ok dba /\
    _euclidean_distance (vec b) (vec c) = Ok dbc /\
    _euclidean_distance (vec a) (vec c) = Ok dac /\
    0 <= dab /\ (dab = 0 <-> a = b) /\ dab = dba /\ dac <= dab + dbc.
Proof.
  exists (dist a b), (dist b a), (dist b c), (dist a c).
  rewrite !euclidean_vec. repeat split; try apply dist_zero.
  - apply dist_nonneg.
  - apply dist_sym.
  - apply dist_triangle.
Qed.

(** ** The X of a dataset without extent, and the axis lines off the band *)

(** X18. When the data has a row and the diagonal of its bounding box is
    degenerate, as for a dataset of one row, the X shape is at the sentinel
    distance 9999 of every point. *)
Theorem x_shape_degenerate (data : DataFrame) (x y : R) :
  has_rows data ->
  degenerate ((Series_min (df_x data), Series_min (df_y data)),
              (Series_max (df_x data), Series_max (df_y data))) ->
  distance (AXLines (XLines.__init__ data)) x y = Ok 9999.
Proof.
  intros _ Hd.
  set (xmin := Series_min (df_x data)) in *. set (ymin := Series_min (df_y data)) in *.
  set (xmax := Series_max (df_x data)) in *. set (ymax := Series_max (df_y data)) in *.
  assert (Hx : XLines.__init__ data
               = Lines.__init__ [((xmin, ymin), (xmax, ymax));
                                 ((xmin, ymax), (xmax, ymin))]) by reflexivity.
  assert (Hd' : degenerate ((xmin, ymax), (xmax, ymin))).
  { unfold degenerate in *. cbn [fst snd] in *.
    replace (dist (xmin, ymax) (xmax, ymin)) with (dist (xmin, ymin) (xmax, ymax));
      [exact Hd|]. unfold dist. cbn [fst snd]. f_equal. ring. }
  cbn [distance]. rewrite Hx. unfold Lines.distance.
  cbn [Lines.lines Lines.__init__ mapM].
  rewrite (segment_degenerate _ _ Hd), (segment_degenerate _ _ Hd'), !bind_Ok.
  cbn. f_equal. apply Rmin_left. lra.
Qed.

Lemma x_shape_degenerate_witness :
  distance (AXLines (XLines.__init__ {| df_x := [5]; df_y := [5] |})) 1 2 = Ok 9999.
Proof.
  apply (x_shape_degenerate {| df_x := [5]; df_y := [5] |} 1 2).
  - split; discriminate.
  - exact degenerate_is_5_5.
Defined.

Lemma dist_ge_dx (a b : point) : Rabs (a.1 - b.1) <= dist a b.
Proof.
  apply Rle_of_sqr; [apply dist_nonneg|]. rewrite dist_sqr.
  replace (Rabs (a.1 - b.1) * Rabs (a.1 - b.1)) with ((a.1 - b.1) * (a.1 - b.1)).
  - pose proof (Rle_0_sqr (a.2 - b.2)) as H. unfold Rsqr in H. lra.
  - unfold Rabs. destruct (Rcase_abs _); ring.
Qed.

Lemma h_segment_off_band (c x y : R) :
  x < 0.001 \/ 100 < x ->
  exists d, Lines.distance_point_to_line (x, y) ((0, c), (100, c)) = Ok d /\ 99.999 < d.
Proof.
  intros Hx.
  assert (Hnd : ~ degenerate ((0, c), (100, c))).
  { unfold degenerate. cbn [fst snd]. rewrite dist_horizontal.
    rewrite Rabs_left1 by lra. lra. }
  assert (Hu : projection (x, y) ((0, c), (100, c)) = x / 100).
  { rewrite projection_horizontal by lra. field. }
  eexists. split.
  - apply segment_endpoint; [exact Hnd|]. rewrite Hu. lra.
  - cbn [fst snd].
    pose proof (dist_ge_dx (x, y) (0, c)) as H0.
    pose proof (dist_ge_dx (x, y) (100, c)) as H100. cbn [fst snd] in *.
    pose proof (Rmax_l (dist (x, y) (0, c)) (dist (x, y) (100, c))).
    pose proof (Rmax_r (dist (x, y) (0, c)) (dist (x, y) (100, c))).
    destruct Hx as [Hx | Hx].
    + rewrite Rabs_left1 in H100 by lra. lra.
    + rewrite Rabs_right in H0 by lra. lra.
Qed.

(** X19. Left of the abscissa 0.001 and right of 100 the horizontal lines
    are more than 99.999 away, also from the points of the lines between 0
    and 0.001; likewise for the vertical lines, with the coordinates
    exchanged. *)
Theorem axis_lines_off_band (data : DataFrame) (t s : R) :
  t < 0.001 \/ 100 < t ->
  exists d,
    distance (AHorizontalLines (HorizontalLines.__init__ data)) t s = Ok d /\
    distance (AVerticalLines (VerticalLines.__init__ data)) s t = Ok d /\
    99.999 < d.
Proof.
  intros Ht.
  destruct (Lines_distance_min (HorizontalLines.__init__ data) t s)
    as (d & Hd & (l & Hl & Hld) & _); [done|].
  exists d. rewrite (vertical_horizontal data data s t). cbn [distance].
  repeat split; try exact Hd.
  apply list_elem_of_In, in_map_iff in Hl as (c & <- & _).
  destruct (h_segment_off_band c t s Ht) as (d' & Hd' & Hlt).
  rewrite Hd' in Hld. by injection Hld as <-.
Qed.

Lemma axis_lines_off_band_witness :
  let data := {| df_x := [1; 2]; df_y := [3; 4] |} in
  exists d,
    distance (AHorizontalLines (HorizontalLines.__init__ data)) 0 10 = Ok d /\
    distance (AVerticalLines (VerticalLines.__init__ data)) 10 0 = Ok d /\
    99.999 < d.
Proof.
  intros data. apply (axis_lines_off_band data 0 10). left. lra.
Defined.

(** ** The guard of the projection branch, on the outline *)

Lemma h_lines_off_band (data : DataFrame) (x y : R) :
  x < 0.001 \/ 100 < x ->
  exists d,
    distance (AHorizontalLines (HorizontalLines.__init__ data)) x y = Ok d /\
    99.999 < d.
Proof.
  intros Hx.
  destruct (Lines_distance_min (HorizontalLines.__init__ data) x y)
    as (d & Hd & (l & Hl & Hld) & _); [done|].
  exists d. split; [exact Hd|].
  apply list_elem_of_In, in_map_iff in Hl as (c & <- & _).
  destruct (h_segment_off_band c x y Hx) as (d' & Hd' & Hlt).
  rewrite Hd' in Hld. by injection Hld as <-.
Qed.

(** C7, as the specification states it, fails. The point (0.0005, 10) lies
    on the first of the horizontal lines, between its start (0, 10) and its
    end (100, 10); its projection parameter 0.000005 is below the guard
    0.00001 of the projection branch, and its distance to the shape is more
    than 99.999, not zero. *)
Lemma guarded_outline_not_at_zero :
  let data := {| df_x := [1; 2]; df_y := [3; 4] |} in
  exists shape d,
    ShapeFactory.generate_shape (ShapeFactory.__init__ data) "h_lines" = Ok shape /\
    on_outline shape (0.0005, 10) /\
    projection (0.0005, 10) h_line_10 < 0.00001 /\
    distance shape 0.0005 10 = Ok d /\
    99.999 < d /\
    distance shape 0.0005 10 <> Ok 0.
Proof.
  intros data.
  destruct (h_lines_off_band data 0.0005 10) as (d & Hd & Hlt); [left; lra|].
  exists (AHorizontalLines (HorizontalLines.__init__ data)), d.
  split; [reflexivity|]. split; [|split; [|split; [exact Hd | split; [exact Hlt|]]]].
  - exists h_line_10. split; [left|]. exists 0.000005. split; [lra|].
    unfold along, h_line_10. cbn [fst snd]. f_equal; lra.
  - rewrite h_line_10_projection. lra.
  - rewrite Hd. intros [= Hz]. lra.
Qed.

(** The inside of the first horizontal line is on the part of the outline
    that the amended claim reaches: the point (50, 10) is at distance 0. *)
Example h_lines_inside (data : DataFrame) :
  on_inner_outline (AHorizontalLines (HorizontalLines.__init__ data)) (50, 10) /\
  distance (AHorizontalLines (HorizontalLines.__init__ data)) 50 10 = Ok 0.
Proof.
  assert (Hin : on_inner_outline (AHorizontalLines (HorizontalLines.__init__ data))
                  (50, 10)).
  { exists h_line_10. split; [left | exact h_line_10_inside]. }
  split; [exact Hin|].
  destruct (Lines_metric AHorizontalLines (HorizontalLines.__init__ data) 50 10)
    as (d & Hd & _ & _ & Hz); [auto | done |].
  rewrite Hd. f_equal. by apply Hz.
Qed.
